(** * The linear-system visualizer: Ax = b and the null space of A

    A shallow embedding of the computational core of the component
    [LinearSystemVisualizer] ([my-react-app/src/main.jsx]): the coordinate
    mapper [toSvg], the matrix helper [transform], the three-scalar
    component state with its [onChange] handlers, and the vectors the
    component derives from the state on every render.

    A JavaScript [number] is an IEEE 754 binary64 value.  The component is
    written against an interface of arithmetic operations, [Number], which
    is instantiated twice:
    - at [Q], exact rational arithmetic (every finite binary64 value is a
      rational, so every parameter the component can hold is covered; what
      is idealised is the rounding of each operation);
    - at [float], the kernel's binary64 numbers with round-to-nearest-even,
      which is the arithmetic the component really runs on. *)

From Stdlib Require Import ZArith QArith Qabs Lqa Lia List Bool.
From Stdlib Require Import Floats Uint63.
Import ListNotations.

Set Implicit Arguments.

(** ** Numbers *)

(** The operations the component uses on numbers: decimal literals and the
    four arithmetic operators. *)
Class Number (T : Type) : Type := {
  lit : Q -> T;
  add : T -> T -> T;
  sub : T -> T -> T;
  mul : T -> T -> T;
  div : T -> T -> T
}.

Arguments lit {T _} q%_Q.

Declare Scope num_scope.
Delimit Scope num_scope with num.
Infix "+" := add : num_scope.
Infix "-" := sub : num_scope.
Infix "*" := mul : num_scope.
Infix "/" := div : num_scope.

(** Exact arithmetic. *)
#[export] Instance exact : Number Q := {|
  lit := fun q => q;
  add := Qplus;
  sub := Qminus;
  mul := Qmult;
  div := Qdiv
|}.

(** Binary64 arithmetic.  An integer below 2^53 in magnitude converts
    exactly, and the division is correctly rounded, so that [b64_lit] of a
    fraction [n/d] with [n] and [d] below 2^53 is the binary64 value nearest
    to it: the value the JavaScript parser gives to the decimal literal, and
    [parseFloat] to the decimal string of a slider.  All the literals of the
    component are of this kind. *)
Definition b64_of_Z (z : Z) : float :=
  match z with
  | Z0 => PrimFloat.zero
  | Zpos _ => PrimFloat.of_uint63 (Uint63.of_Z z)
  | Zneg p => PrimFloat.opp (PrimFloat.of_uint63 (Uint63.of_Z (Zpos p)))
  end.

Definition b64_lit (q : Q) : float :=
  PrimFloat.div (b64_of_Z (Qnum q)) (b64_of_Z (Zpos (Qden q))).

#[export] Instance binary64 : Number float := {|
  lit := b64_lit;
  add := PrimFloat.add;
  sub := PrimFloat.sub;
  mul := PrimFloat.mul;
  div := PrimFloat.div
|}.

(** ** Points *)

(** The object literals [{ x: ..., y: ... }] of the source. *)
Module Vec.
Record t (T : Type) : Type := mk { x : T; y : T }.
Arguments mk {T} x y.
Arguments x {T} _.
Arguments y {T} _.
End Vec.

(** ** The component *)

(** The three [useState] cells. *)
Record State (T : Type) : Type := mkState {
  bScalar : T;
  lambda1 : T;
  lambda2 : T
}.

Arguments mkState {T} _ _ _.
Arguments bScalar {T} _.
Arguments lambda1 {T} _.
Arguments lambda2 {T} _.

(** The three range inputs of the control panel. *)
Inductive Control : Type :=
| TargetB
| SolutionX1
| SolutionX2.

Section LinearSystemVisualizer.

Context {T : Type} `{Number T}.

Local Open Scope num_scope.

(** [useState(3)], [useState(1)], [useState(-2)] *)
Definition initialState : State T :=
  mkState (lit 3) (lit 1) (lit (-2)).

(** The state setters returned by [useState]. *)
Definition setBScalar (v : T) (s : State T) : State T :=
  mkState v (lambda1 s) (lambda2 s).

Definition setLambda1 (v : T) (s : State T) : State T :=
  mkState (bScalar s) v (lambda2 s).

Definition setLambda2 (v : T) (s : State T) : State T :=
  mkState (bScalar s) (lambda1 s) v.

(** The [onChange] handler of each range input; [v] is the number that
    [parseFloat(e.target.value)] returns. *)
Definition onChange (c : Control) (v : T) (s : State T) : State T :=
  match c with
  | TargetB => setBScalar v s
  | SolutionX1 => setLambda1 v s
  | SolutionX2 => setLambda2 v s
  end.

(** Coordinate system constants. *)
Definition VIEWBOX_SIZE : T := lit 20.
Definition SCALE : T := lit 40.
Definition ORIGIN : T := VIEWBOX_SIZE / lit 2.

(** Math coordinates to SVG coordinates. *)
Definition toSvg (x y : T) : Vec.t T :=
  Vec.mk ((ORIGIN + x) * SCALE) ((ORIGIN - y) * SCALE).

(** Multiplication by A = [[1, 0.5], [0.5, 0.25]]. *)
Definition transform (x y : T) : Vec.t T :=
  Vec.mk (lit 1 * x + lit 0.5 * y) (lit 0.5 * x + lit 0.25 * y).

(** The vectors computed from the state on each render. *)
Definition xp (s : State T) : Vec.t T :=
  Vec.mk (bScalar s) (lit 0).

Definition nullBasis : Vec.t T :=
  Vec.mk (lit (-0.5)) (lit 1).

Definition x1 (s : State T) : Vec.t T :=
  Vec.mk (Vec.x (xp s) + lambda1 s * Vec.x nullBasis)
         (Vec.y (xp s) + lambda1 s * Vec.y nullBasis).

Definition x2 (s : State T) : Vec.t T :=
  Vec.mk (Vec.x (xp s) + lambda2 s * Vec.x nullBasis)
         (Vec.y (xp s) + lambda2 s * Vec.y nullBasis).

Definition diff (s : State T) : Vec.t T :=
  Vec.mk (Vec.x (x1 s) - Vec.x (x2 s))
         (Vec.y (x1 s) - Vec.y (x2 s)).

Definition bVec (s : State T) : Vec.t T :=
  transform (Vec.x (xp s)) (Vec.y (xp s)).

Definition bFromX1 (s : State T) : Vec.t T :=
  transform (Vec.x (x1 s)) (Vec.y (x1 s)).

Definition bFromX2 (s : State T) : Vec.t T :=
  transform (Vec.x (x2 s)) (Vec.y (x2 s)).

Definition mappedDiff (s : State T) : Vec.t T :=
  transform (Vec.x (diff s)) (Vec.y (diff s)).

End LinearSystemVisualizer.

(** ** Comparing points *)

(** Equality of points over [Q], componentwise up to the representation of
    fractions. *)
Definition veq (u v : Vec.t Q) : Prop :=
  Vec.x u == Vec.x v /\ Vec.y u == Vec.y v.

Infix "=v=" := veq (at level 70, no associativity).

(** Binary64 points no further apart than [tol] in either coordinate. *)
Definition b64_near (tol : float) (u v : Vec.t float) : bool :=
  PrimFloat.leb (PrimFloat.abs (PrimFloat.sub (Vec.x u) (Vec.x v))) tol
  && PrimFloat.leb (PrimFloat.abs (PrimFloat.sub (Vec.y u) (Vec.y v))) tol.

Definition b64_origin : Vec.t float := Vec.mk PrimFloat.zero PrimFloat.zero.

(** The numeric tolerance of the null-space invariant. *)
Definition epsilon : float := b64_lit 1e-9.

(** IEEE equality of [v.y] and [0.5 * v.x]: the point is on the line
    y = 0.5x. *)
Definition b64_on_line (v : Vec.t float) : bool :=
  PrimFloat.eqb (Vec.y v) (PrimFloat.mul (b64_lit 0.5) (Vec.x v)).

(** ** The range inputs *)

(** Each control is [<input type="range" min="-4" max="4" step="0.1">]: it
    offers the 81 positions k/10 for k from -40 to 40, and the handler
    receives the number nearest to the position. *)
Definition sliderValue {T : Type} `{Number T} (k : Z) : T := lit (k # 10).

Definition sliderState {T : Type} `{Number T} (kb k1 k2 : Z) : State T :=
  mkState (sliderValue kb) (sliderValue k1) (sliderValue k2).

Definition sliderSteps : list Z :=
  map (fun n => (Z.of_nat n - 40)%Z) (seq 0 81).

(** The range of the position index of a slider. *)
Definition inRange (k : Z) : Prop := (-40 <= k <= 40)%Z.

Definition sliderValues {T : Type} `{Number T} : list T :=
  map sliderValue sliderSteps.

(** A property of the binary64 component checked at each of the 81^3
    settings of the three controls. *)
Definition forall_settings (p : State float -> bool) : bool :=
  let vs := sliderValues in
  forallb (fun b =>
    forallb (fun l1 =>
      forallb (fun l2 => p (mkState b l1 l2)) vs) vs) vs.

(** ** The lattice of the visible range *)





(** ** Scenarios *)

(** The setting bScalar = 3, lambda1 = 1, lambda2 = -2. *)
Definition scenario1 {T : Type} `{Number T} : State T :=
  mkState (lit 3) (lit 1) (lit (-2)).

(** The setting bScalar = -4, lambda1 = 4, lambda2 = 4. *)
Definition scenario3 {T : Type} `{Number T} : State T :=
  mkState (lit (-4)) (lit 4) (lit 4).

(** ** Events *)

(** A session is a sequence of slider changes, handled one at a time. *)
Fixpoint handle {T : Type}
    (evs : list (Control * T)) (s : State T) : State T :=
  match evs with
  | [] => s
  | (c, v) :: evs' => handle evs' (onChange c v s)
  end.

(** The scalar that a control adjusts. *)
Definition scalar {T : Type} (c : Control) (s : State T) : T :=
  match c with
  | TargetB => bScalar s
  | SolutionX1 => lambda1 s
  | SolutionX2 => lambda2 s
  end.

Definition Control_eqb (c c' : Control) : bool :=
  match c, c' with
  | TargetB, TargetB | SolutionX1, SolutionX1 | SolutionX2, SolutionX2 => true
  | _, _ => false
  end.

(** ** The drawing *)

(** The attributes [x1], [y1], [x2], [y2] of an SVG [<line>]. *)
Module Line.
Record t (T : Type) : Type := mk { x1 : T; y1 : T; x2 : T; y2 : T }.
Arguments mk {T} x1 y1 x2 y2.
Arguments x1 {T} _.
Arguments y1 {T} _.
Arguments x2 {T} _.
Arguments y2 {T} _.
End Line.

Section Drawing.

Context {T : Type} `{Number T}.

Local Open Scope num_scope.

(** The side of the square [viewBox="0 0 ${VIEWBOX_SIZE * SCALE}
    ${VIEWBOX_SIZE * SCALE}"] of both panels. *)
Definition viewBoxSide : T := VIEWBOX_SIZE * SCALE.

(** [Grid]: the position [i * SCALE] of the vertical and of the horizontal
    line of index [i], for the indices of
    [Array.from({ length: VIEWBOX_SIZE + 1 })]. *)
Definition gridLine (i : Z) : T := lit (i # 1) * SCALE.

Definition gridIndices : list Z := map Z.of_nat (seq 0 (20 + 1)).

(** [Grid]: the position [ORIGIN * SCALE] of both axes. *)
Definition axisLine : T := ORIGIN * SCALE.

(** [Arrow]: the [<line>] from [s = toSvg(start.x, start.y)] to
    [e = toSvg(end.x, end.y)]. *)
Definition arrowLine (start end_ : Vec.t T) : Line.t T :=
  Line.mk (Vec.x (toSvg (Vec.x start) (Vec.y start)))
          (Vec.y (toSvg (Vec.x start) (Vec.y start)))
          (Vec.x (toSvg (Vec.x end_) (Vec.y end_)))
          (Vec.y (toSvg (Vec.x end_) (Vec.y end_))).

(** The start [{x:0, y:0}] of the three arrows. *)
Definition arrowStart : Vec.t T := Vec.mk (lit 0) (lit 0).

(** The dashed null-space line of the input panel. *)
Definition nullSpaceLine : Line.t T :=
  Line.mk (Vec.x (toSvg (lit (-5)) (lit 10)))
          (Vec.y (toSvg (lit (-5)) (lit 10)))
          (Vec.x (toSvg (lit 5) (lit (-10))))
          (Vec.y (toSvg (lit 5) (lit (-10)))).

(** The solution line of the input panel, through [xp] along
    [nullBasis]. *)
Definition solutionLine (s : State T) : Line.t T :=
  Line.mk
    (Vec.x (toSvg (Vec.x (xp s) - lit 5 * Vec.x nullBasis)
                  (Vec.y (xp s) - lit 5 * Vec.y nullBasis)))
    (Vec.y (toSvg (Vec.x (xp s) - lit 5 * Vec.x nullBasis)
                  (Vec.y (xp s) - lit 5 * Vec.y nullBasis)))
    (Vec.x (toSvg (Vec.x (xp s) + lit 5 * Vec.x nullBasis)
                  (Vec.y (xp s) + lit 5 * Vec.y nullBasis)))
    (Vec.y (toSvg (Vec.x (xp s) + lit 5 * Vec.x nullBasis)
                  (Vec.y (xp s) + lit 5 * Vec.y nullBasis))).

(** The dashed line between the tips of [x2] and [x1]. *)
Definition differenceLine (s : State T) : Line.t T :=
  Line.mk (Vec.x (toSvg (Vec.x (x2 s)) (Vec.y (x2 s))))
          (Vec.y (toSvg (Vec.x (x2 s)) (Vec.y (x2 s))))
          (Vec.x (toSvg (Vec.x (x1 s)) (Vec.y (x1 s))))
          (Vec.y (toSvg (Vec.x (x1 s)) (Vec.y (x1 s)))).

(** The column-space line of the output panel. *)
Definition columnSpaceLine : Line.t T :=
  Line.mk (Vec.x (toSvg (lit (-10)) (lit (-5))))
          (Vec.y (toSvg (lit (-10)) (lit (-5))))
          (Vec.x (toSvg (lit 10) (lit 5)))
          (Vec.y (toSvg (lit 10) (lit 5))).

(** The centres [cx], [cy] of the two circles of the output panel. *)
Definition targetMarker (s : State T) : Vec.t T :=
  toSvg (Vec.x (bVec s)) (Vec.y (bVec s)).

Definition diffMarker (s : State T) : Vec.t T :=
  toSvg (Vec.x (mappedDiff s)) (Vec.y (mappedDiff s)).

End Drawing.

(** ** Positions in the drawing *)

(** A value the sliders can give: [min="-4" max="4"]. *)
Definition inSlider (q : Q) : Prop := -4 <= q <= 4.

Definition inSliders (s : State Q) : Prop :=
  inSlider (bScalar s) /\ inSlider (lambda1 s) /\ inSlider (lambda2 s).

(** A pixel position inside the view box. *)
Definition inViewBox (p : Vec.t Q) : Prop :=
  (0 <= Vec.x p <= viewBoxSide) /\ (0 <= Vec.y p <= viewBoxSide).

Definition lineInViewBox (l : Line.t Q) : Prop :=
  inViewBox (Vec.mk (Line.x1 l) (Line.y1 l)) /\
  inViewBox (Vec.mk (Line.x2 l) (Line.y2 l)).

(** The pixel position [p] is the point of parameter [t] of the segment
    [l], counted from its first end. *)
Definition onSegment (l : Line.t Q) (p : Vec.t Q) (t : Q) : Prop :=
  0 <= t <= 1 /\
  Vec.x p == Line.x1 l + t * (Line.x2 l - Line.x1 l) /\
  Vec.y p == Line.y1 l + t * (Line.y2 l - Line.y1 l).

Definition b64_inViewBox (p : Vec.t float) : bool :=
  PrimFloat.leb PrimFloat.zero (Vec.x p) && PrimFloat.leb (Vec.x p) viewBoxSide
  && PrimFloat.leb PrimFloat.zero (Vec.y p)
  && PrimFloat.leb (Vec.y p) viewBoxSide.

Definition b64_lineInViewBox (l : Line.t float) : bool :=
  b64_inViewBox (Vec.mk (Line.x1 l) (Line.y1 l))
  && b64_inViewBox (Vec.mk (Line.x2 l) (Line.y2 l)).

(** Everything the two panels draw from the state. *)
Definition b64_drawnInViewBox (s : State float) : bool :=
  b64_lineInViewBox (arrowLine arrowStart (x1 s))
  && b64_lineInViewBox (arrowLine arrowStart (x2 s))
  && b64_lineInViewBox (arrowLine arrowStart (diff s))
  && b64_lineInViewBox (differenceLine s)
  && b64_lineInViewBox (solutionLine s)
  && b64_inViewBox (targetMarker s)
  && b64_inViewBox (diffMarker s).

(** ** Sessions *)

(** The last value given to the control [c] in a session, if any. *)
Fixpoint lastChange {T : Type} (c : Control) (evs : list (Control * T))
    : option T :=
  match evs with
  | [] => None
  | (c', v) :: evs' =>
      match lastChange c evs' with
      | Some w => Some w
      | None => if Control_eqb c' c then Some v else None
      end
  end.

(** A slider moved to the position of index [k]. *)
Definition slide {T : Type} `{Number T} (e : Control * Z) : Control * T :=
  (fst e, sliderValue (snd e)).

(** ** Positions on the drawn lines *)

Section Positions.

Context {T : Type} `{Number T}.

Local Open Scope num_scope.

(** The pixel of a vector: [toSvg(v.x, v.y)]. *)
Definition pixel (v : Vec.t T) : Vec.t T := toSvg (Vec.x v) (Vec.y v).

(** The affine map that [toSvg] computes, written with its scale 40 and
    its offset 400 = ORIGIN * SCALE. *)
Definition affinePixel (v : Vec.t T) : Vec.t T :=
  Vec.mk (lit 40 * Vec.x v + lit 400) (lit 400 - lit 40 * Vec.y v).

(** The point of parameter [t] of a segment, and the extent of a segment
    from its first end to its second. *)
Definition segmentPoint (l : Line.t T) (t : T) : Vec.t T :=
  Vec.mk (Line.x1 l + t * (Line.x2 l - Line.x1 l))
         (Line.y1 l + t * (Line.y2 l - Line.y1 l)).

Definition extent (l : Line.t T) : Vec.t T :=
  Vec.mk (Line.x2 l - Line.x1 l) (Line.y2 l - Line.y1 l).

(** The two ends of the solution line, before [toSvg]. *)
Definition solutionLineStart (s : State T) : Vec.t T :=
  Vec.mk (Vec.x (xp s) - lit 5 * Vec.x nullBasis)
         (Vec.y (xp s) - lit 5 * Vec.y nullBasis).

Definition solutionLineEnd (s : State T) : Vec.t T :=
  Vec.mk (Vec.x (xp s) + lit 5 * Vec.x nullBasis)
         (Vec.y (xp s) + lit 5 * Vec.y nullBasis).

(** Where a tip is expected on each drawn segment. *)
Definition solutionParameter (lambda : T) : T := (lambda + lit 5) / lit 10.

Definition nullSpaceParameter (s : State T) : T :=
  (lit 10 - (lambda1 s - lambda2 s)) / lit 20.

Definition columnSpaceParameter (s : State T) : T :=
  (bScalar s + lit 10) / lit 20.

(** (lambda1 - lambda2) * nullBasis: no bScalar in it. *)
Definition gapVector (s : State T) : Vec.t T :=
  Vec.mk ((lambda1 s - lambda2 s) * Vec.x nullBasis)
         ((lambda1 s - lambda2 s) * Vec.y nullBasis).

End Positions.

(** A binary64 parameter between 0 and 1. *)
Definition b64_unit (t : float) : bool :=
  PrimFloat.leb PrimFloat.zero t && PrimFloat.leb t PrimFloat.one.


Definition b64_tipsOnSolutionLine (s : State float) : bool :=
  b64_near epsilon
    (transform (Vec.x (solutionLineStart s)) (Vec.y (solutionLineStart s)))
    (bVec s)
  && b64_near epsilon
       (transform (Vec.x (solutionLineEnd s)) (Vec.y (solutionLineEnd s)))
       (bVec s)
  && b64_unit (solutionParameter (lambda1 s))
  && b64_unit (solutionParameter (lambda2 s))
  && b64_near epsilon (pixel (x1 s))
       (segmentPoint (solutionLine s) (solutionParameter (lambda1 s)))
  && b64_near epsilon (pixel (x2 s))
       (segmentPoint (solutionLine s) (solutionParameter (lambda2 s))).

Definition b64_diffOnNullSpaceLine (s : State float) : bool :=
  b64_unit (nullSpaceParameter s)
  && b64_near epsilon (pixel (diff s))
       (segmentPoint nullSpaceLine (nullSpaceParameter s))
  && b64_near epsilon (pixel arrowStart)
       (segmentPoint nullSpaceLine (lit 0.5)).

Definition b64_sameExtent (s : State float) : bool :=
  b64_near epsilon (extent (differenceLine s))
                   (extent (arrowLine arrowStart (diff s))).

Definition b64_markersOnColumnSpaceLine (s : State float) : bool :=
  b64_unit (columnSpaceParameter s)
  && b64_near epsilon (targetMarker s)
       (segmentPoint columnSpaceLine (columnSpaceParameter s))
  && b64_near epsilon (diffMarker s)
       (segmentPoint columnSpaceLine (lit 0.5)).

Definition b64_diffIsGap (s : State float) : bool :=
  b64_near epsilon (diff s) (gapVector s).

(** * Properties *)

(** ** Exact arithmetic *)

Ltac exact_arith :=
  unfold veq, mappedDiff, bVec, bFromX1, bFromX2, diff, x1, x2, xp,
    nullBasis, transform, toSvg, ORIGIN, VIEWBOX_SIZE, SCALE,
    sliderState, sliderValue;
  cbn [Vec.x Vec.y bScalar lambda1 lambda2 lit add sub mul div exact].

Lemma transform_exact (x y : Q) :
  Vec.x (transform x y) == x + 0.5 * y /\
  Vec.y (transform x y) == 0.5 * (x + 0.5 * y).
Proof. exact_arith. split; ring. Qed.

Lemma toSvg_exact (x y : Q) :
  Vec.x (toSvg x y) == 40 * x + 400 /\
  Vec.y (toSvg x y) == 400 - 40 * y.
Proof. exact_arith. split; field. Qed.

Lemma veq_refl (u : Vec.t Q) : u =v= u.
Proof. split; reflexivity. Qed.

Lemma veq_sym (u v : Vec.t Q) : u =v= v -> v =v= u.
Proof. intros [Hx Hy]; split; symmetry; assumption. Qed.

Lemma veq_trans (u v w : Vec.t Q) : u =v= v -> v =v= w -> u =v= w.
Proof.
  intros [Hx Hy] [Hx' Hy']; split;
    [rewrite Hx | rewrite Hy]; assumption.
Qed.

(** Both solutions, and the particular solution, are sent to
    b = bScalar * (1, 0.5). *)
Lemma image_exact (s : State Q) :
  bVec s =v= Vec.mk (bScalar s) (0.5 * bScalar s) /\
  bFromX1 s =v= Vec.mk (bScalar s) (0.5 * bScalar s) /\
  bFromX2 s =v= Vec.mk (bScalar s) (0.5 * bScalar s).
Proof. exact_arith. repeat split; ring. Qed.

(** The difference of the two solutions is (lambda1 - lambda2) * nullBasis. *)
Lemma diff_exact (s : State Q) :
  diff s =v= Vec.mk ((lambda1 s - lambda2 s) * Vec.x nullBasis)
                    ((lambda1 s - lambda2 s) * Vec.y nullBasis).
Proof. exact_arith. split; ring. Qed.

(** ** Binary64 arithmetic at the slider settings *)

Lemma sliderSteps_spec (k : Z) : inRange k -> In k sliderSteps.
Proof.
  unfold inRange, sliderSteps. intros Hk.
  apply in_map_iff. exists (Z.to_nat (k + 40)). split.
  - lia.
  - apply in_seq. lia.
Qed.

Lemma sliderValues_spec (k : Z) :
  inRange k -> In (sliderValue (T:=float) k) sliderValues.
Proof.
  intros Hk. unfold sliderValues. apply in_map. now apply sliderSteps_spec.
Qed.

Lemma forall_settings_spec (p : State float -> bool) :
  forall_settings p = true ->
  forall kb k1 k2 : Z, inRange kb -> inRange k1 -> inRange k2 ->
    p (sliderState kb k1 k2) = true.
Proof.
  unfold forall_settings. intros Hall kb k1 k2 Hb H1 H2.
  rewrite forallb_forall in Hall.
  specialize (Hall _ (sliderValues_spec Hb)). cbv beta in Hall.
  rewrite forallb_forall in Hall.
  specialize (Hall _ (sliderValues_spec H1)). cbv beta in Hall.
  rewrite forallb_forall in Hall.
  exact (Hall _ (sliderValues_spec H2)).
Qed.

(** Evaluates a check of the binary64 component at every slider setting,
    with the constants of the component computed once. *)
Ltac by_settings :=
  lazymatch goal with
  | |- forall_settings ?p = true =>
      let q := eval cbv in p in
      change (forall_settings q = true);
      vm_cast_no_check (eq_refl true)
  end.

(** ** The null-space invariant *)

(** C1.  The difference of the two solutions is sent to the origin.  Over
    exact arithmetic [mappedDiff] is (0, 0) for every value of the three
    scalars; in binary64 arithmetic it is within 1e-9 of (0, 0) at every
    setting of the three sliders. *)
Theorem mappedDiff_null :
  (forall s : State Q, mappedDiff s =v= Vec.mk 0 0) /\
  (forall kb k1 k2 : Z, inRange kb -> inRange k1 -> inRange k2 ->
     b64_near epsilon (mappedDiff (sliderState kb k1 k2)) b64_origin = true).
Proof.
  split.
  - intros s. exact_arith. split; ring.
  - apply (forall_settings_spec
             (fun s => b64_near epsilon (mappedDiff s) b64_origin)).
    vm_cast_no_check (eq_refl true).
Qed.

(** The invariant at the initial setting 3, 1, -2 of the sliders. *)
Lemma mappedDiff_null_witness :
  (inRange 30 /\ inRange 10 /\ inRange (-20)) /\
  b64_near epsilon (mappedDiff (sliderState 30 10 (-20))) b64_origin = true.
Proof.
  assert (Hr : inRange 30 /\ inRange 10 /\ inRange (-20))
    by (unfold inRange; lia).
  split; [exact Hr |].
  destruct Hr as (Hb & H1 & H2).
  exact (proj2 mappedDiff_null 30%Z 10%Z (-20)%Z Hb H1 H2).
Defined.

(** C2.  Both solutions have the image of the particular solution.  Over
    exact arithmetic transform(x1) = transform(x2) = transform(xp) for every
    value of the three scalars; in binary64 arithmetic the three images are
    pairwise within 1e-9 at every setting of the three sliders. *)
Theorem solutions_same_image :
  (forall s : State Q,
     bFromX1 s =v= bFromX2 s /\ bFromX1 s =v= bVec s /\ bFromX2 s =v= bVec s) /\
  (forall kb k1 k2 : Z, inRange kb -> inRange k1 -> inRange k2 ->
     b64_near epsilon (bFromX1 (sliderState kb k1 k2))
                      (bFromX2 (sliderState kb k1 k2))
     && b64_near epsilon (bFromX1 (sliderState kb k1 k2))
                         (bVec (sliderState kb k1 k2))
     && b64_near epsilon (bFromX2 (sliderState kb k1 k2))
                         (bVec (sliderState kb k1 k2)) = true).
Proof.
  split.
  - intros s. destruct (image_exact s) as (Hb & H1 & H2).
    split; [| split].
    + exact (veq_trans H1 (veq_sym H2)).
    + exact (veq_trans H1 (veq_sym Hb)).
    + exact (veq_trans H2 (veq_sym Hb)).
  - apply (forall_settings_spec
             (fun s => b64_near epsilon (bFromX1 s) (bFromX2 s)
                       && b64_near epsilon (bFromX1 s) (bVec s)
                       && b64_near epsilon (bFromX2 s) (bVec s))).
    vm_cast_no_check (eq_refl true).
Qed.

(** The three images at the setting 0.1, 4, -0.7, where they differ in the
    last bits. *)
Lemma solutions_same_image_witness :
  (inRange 1 /\ inRange 40 /\ inRange (-7)) /\
  b64_near epsilon (bFromX1 (sliderState 1 40 (-7)))
                   (bFromX2 (sliderState 1 40 (-7)))
  && b64_near epsilon (bFromX1 (sliderState 1 40 (-7)))
                      (bVec (sliderState 1 40 (-7)))
  && b64_near epsilon (bFromX2 (sliderState 1 40 (-7)))
                      (bVec (sliderState 1 40 (-7))) = true.
Proof.
  assert (Hr : inRange 1 /\ inRange 40 /\ inRange (-7))
    by (unfold inRange; lia).
  split; [exact Hr |].
  destruct Hr as (Hb & H1 & H2).
  exact (proj2 solutions_same_image 1%Z 40%Z (-7)%Z Hb H1 H2).
Defined.

(** ** The matrix *)

(** C3.  A sends the null-space basis vector (-0.5, 1) to (0, 0): exactly
    over the rationals, and exactly in binary64 arithmetic, where both
    coordinates of the result are the number +0. *)
Theorem transform_nullBasis :
  (nullBasis (T:=Q) =v= Vec.mk (-0.5) 1 /\
   transform (T:=Q) (-0.5) 1 =v= Vec.mk 0 0 /\
   transform (T:=Q) (Vec.x nullBasis) (Vec.y nullBasis) =v= Vec.mk 0 0) /\
  (nullBasis (T:=float) = Vec.mk (-0.5)%float 1%float /\
   transform (-0.5)%float 1%float = b64_origin /\
   transform (T:=float) (Vec.x nullBasis) (Vec.y nullBasis) = b64_origin).
Proof.
  split.
  - repeat split; reflexivity.
  - repeat split; vm_compute; reflexivity.
Qed.

(** C9.  The image of [transform] is the line y = 0.5x.  Over exact
    arithmetic, transform(x, y) = (x + 0.5y) * (1, 0.5) for every (x, y), so
    that its second coordinate is half of its first; in particular the
    target b = transform(xp) is on the line in every state.  In binary64
    arithmetic the four rendered images (of xp, x1, x2 and diff) satisfy
    y === 0.5 * x at every setting of the three sliders. *)
Theorem transform_on_column_space :
  (forall x y : Q,
     transform x y =v= Vec.mk ((x + 0.5 * y) * 1) ((x + 0.5 * y) * 0.5) /\
     Vec.y (transform x y) == 0.5 * Vec.x (transform x y)) /\
  (forall s : State Q, Vec.y (bVec s) == 0.5 * Vec.x (bVec s)) /\
  (forall kb k1 k2 : Z, inRange kb -> inRange k1 -> inRange k2 ->
     b64_on_line (bVec (sliderState kb k1 k2))
     && b64_on_line (bFromX1 (sliderState kb k1 k2))
     && b64_on_line (bFromX2 (sliderState kb k1 k2))
     && b64_on_line (mappedDiff (sliderState kb k1 k2)) = true).
Proof.
  split; [| split].
  - intros x y. exact_arith. repeat split; ring.
  - intros s. exact_arith. ring.
  - apply (forall_settings_spec
             (fun s => b64_on_line (bVec s) && b64_on_line (bFromX1 s)
                       && b64_on_line (bFromX2 s)
                       && b64_on_line (mappedDiff s))).
    vm_cast_no_check (eq_refl true).
Qed.

(** The four images at the setting -1.3, 2.7, 0.1. *)
Lemma transform_on_column_space_witness :
  (inRange (-13) /\ inRange 27 /\ inRange 1) /\
  b64_on_line (bVec (sliderState (-13) 27 1))
  && b64_on_line (bFromX1 (sliderState (-13) 27 1))
  && b64_on_line (bFromX2 (sliderState (-13) 27 1))
  && b64_on_line (mappedDiff (sliderState (-13) 27 1)) = true.
Proof.
  assert (Hr : inRange (-13) /\ inRange 27 /\ inRange 1)
    by (unfold inRange; lia).
  split; [exact Hr |].
  destruct Hr as (Hb & H1 & H2).
  exact (proj2 (proj2 transform_on_column_space) (-13)%Z 27%Z 1%Z Hb H1 H2).
Defined.

(** Applying A twice is not applying it once: at v = (1, 0) the first
    application gives (1, 0.5) and the second (1.25, 0.625), in exact and in
    binary64 arithmetic alike. *)
Lemma transform_not_idempotent :
  ~ (transform (Vec.x (transform 1 0)) (Vec.y (transform 1 0))
       =v= transform (T:=Q) 1 0) /\
  transform (T:=float) 1%float 0%float = Vec.mk 1%float 0.5%float /\
  transform (T:=float) (Vec.x (transform 1%float 0%float))
                       (Vec.y (transform 1%float 0%float))
    = Vec.mk 1.25%float 0.625%float.
Proof.
  split; [| split].
  - intros [Hx _]. vm_compute in Hx. discriminate Hx.
  - vm_compute. reflexivity.
  - vm_compute. reflexivity.
Qed.

(** C4 (amended).  A maps every vector onto the line y = 0.5x and is 1.25
    times a projection onto it: applying [transform] to an image
    transform(v) multiplies it by 1.25, so that A is not idempotent. *)
Theorem transform_twice :
  forall x y : Q,
    Vec.y (transform x y) == 0.5 * Vec.x (transform x y) /\
    transform (Vec.x (transform x y)) (Vec.y (transform x y))
      =v= Vec.mk (1.25 * Vec.x (transform x y))
                 (1.25 * Vec.y (transform x y)).
Proof.
  intros x y. exact_arith. split; [| split]; ring.
Qed.

(** ** The coordinate mapper *)






(** ** Scenarios *)

(** C6.  With bScalar = 3, lambda1 = 1 and lambda2 = -2 the component
    computes xp = (3, 0), x1 = (2.5, 1), x2 = (4, -2), diff = (-1.5, 3) and
    transform(diff) = (0, 0), in exact arithmetic and, with no rounding at
    all, in binary64 arithmetic. *)
Theorem scenario1_vectors :
  (xp (T:=Q) scenario1 =v= Vec.mk 3 0 /\
   x1 (T:=Q) scenario1 =v= Vec.mk 2.5 1 /\
   x2 (T:=Q) scenario1 =v= Vec.mk 4 (-2) /\
   diff (T:=Q) scenario1 =v= Vec.mk (-1.5) 3 /\
   mappedDiff (T:=Q) scenario1 =v= Vec.mk 0 0) /\
  (xp (T:=float) scenario1 = Vec.mk 3%float 0%float /\
   x1 (T:=float) scenario1 = Vec.mk 2.5%float 1%float /\
   x2 (T:=float) scenario1 = Vec.mk 4%float (-2)%float /\
   diff (T:=float) scenario1 = Vec.mk (-1.5)%float 3%float /\
   mappedDiff (T:=float) scenario1 = Vec.mk 0%float 0%float).
Proof.
  split.
  - repeat split; reflexivity.
  - repeat split; vm_compute; reflexivity.
Qed.

(** C7.  At the ends of the slider range, bScalar = -4 and
    lambda1 = lambda2 = 4, the component computes x1 = x2 = (-6, 4) and
    diff = (0, 0), in exact arithmetic and in binary64 arithmetic, where
    every intermediate value is an ordinary finite number computed by the
    same formulas as at any other setting. *)
Theorem scenario3_vectors :
  (x1 (T:=Q) scenario3 =v= Vec.mk (-6) 4 /\
   x2 (T:=Q) scenario3 =v= Vec.mk (-6) 4 /\
   diff (T:=Q) scenario3 =v= Vec.mk 0 0) /\
  (scenario3 (T:=float) = mkState (-4)%float 4%float 4%float /\
   x1 (T:=float) scenario3 = Vec.mk (-6)%float 4%float /\
   x2 (T:=float) scenario3 = Vec.mk (-6)%float 4%float /\
   diff (T:=float) scenario3 = Vec.mk 0%float 0%float).
Proof.
  split.
  - repeat split; reflexivity.
  - repeat split; vm_compute; reflexivity.
Qed.

(** ** The state *)

(** C8.  Each [onChange] handler sets the scalar of its own control to the
    supplied value and leaves the other two scalars as they were. *)
Theorem onChange_frame (T : Type)
    (c : Control) (v : T) (s : State T) :
  match c with
  | TargetB =>
      bScalar (onChange c v s) = v /\
      lambda1 (onChange c v s) = lambda1 s /\
      lambda2 (onChange c v s) = lambda2 s
  | SolutionX1 =>
      bScalar (onChange c v s) = bScalar s /\
      lambda1 (onChange c v s) = v /\
      lambda2 (onChange c v s) = lambda2 s
  | SolutionX2 =>
      bScalar (onChange c v s) = bScalar s /\
      lambda1 (onChange c v s) = lambda1 s /\
      lambda2 (onChange c v s) = v
  end.
Proof.
  destruct c; cbn; repeat split; reflexivity.
Qed.

(** C10.  The component starts at bScalar = 3, lambda1 = 1, lambda2 = -2,
    and its first render computes xp = (3, 0), x1 = (2.5, 1) and
    x2 = (4, -2): the vectors of scenario 1. *)
Theorem initialState_scenario1 :
  (bScalar (initialState (T:=Q)) == 3 /\
   lambda1 (initialState (T:=Q)) == 1 /\
   lambda2 (initialState (T:=Q)) == -2 /\
   xp (T:=Q) initialState =v= Vec.mk 3 0 /\
   x1 (T:=Q) initialState =v= Vec.mk 2.5 1 /\
   x2 (T:=Q) initialState =v= Vec.mk 4 (-2)) /\
  (initialState (T:=float) = mkState 3%float 1%float (-2)%float /\
   xp (T:=float) initialState = Vec.mk 3%float 0%float /\
   x1 (T:=float) initialState = Vec.mk 2.5%float 1%float /\
   x2 (T:=float) initialState = Vec.mk 4%float (-2)%float).
Proof.
  split.
  - repeat split; reflexivity.
  - repeat split; vm_compute; reflexivity.
Qed.

(** Over a whole session, the scalar of a control that is never touched
    keeps its value, and otherwise holds the value of the last change. *)
Lemma onChange_scalar (T : Type)
    (c c' : Control) (v : T) (s : State T) :
  scalar c' (onChange c v s) = if Control_eqb c c' then v else scalar c' s.
Proof. destruct c, c'; reflexivity. Qed.

Lemma handle_app (T : Type)
    (evs evs' : list (Control * T)) (s : State T) :
  handle (evs ++ evs') s = handle evs' (handle evs s).
Proof.
  revert s. induction evs as [| [c v] evs IH]; intros s; cbn.
  - reflexivity.
  - apply IH.
Qed.

Lemma handle_untouched (T : Type)
    (c : Control) (evs : list (Control * T)) (s : State T) :
  Forall (fun e => Control_eqb (fst e) c = false) evs ->
  scalar c (handle evs s) = scalar c s.
Proof.
  intros Hevs. revert s.
  induction Hevs as [| [c' v] evs Hc _ IH]; intros s; cbn.
  - reflexivity.
  - rewrite IH, onChange_scalar. cbn in Hc. now rewrite Hc.
Qed.

Lemma handle_last (T : Type)
    (c : Control) (v : T) (evs : list (Control * T)) (s : State T) :
  scalar c (handle (evs ++ [(c, v)]) s) = v.
Proof.
  rewrite handle_app. cbn. rewrite onChange_scalar.
  now destruct c.
Qed.

(** ** Rounding *)

(** The binary64 statements above are made at the slider settings and on
    the lattice of the visible range.  The facts below record what rounding
    does elsewhere, and why the null-space invariant carries a tolerance. *)

(** At bScalar = 0.3, lambda1 = -0.3, lambda2 = 0 the sum 0.3 + 0.15 is
    rounded, and [mappedDiff] is a few 1e-17 away from (0, 0); [toSvg] still
    draws it on the pixel of the origin. *)
Lemma b64_mappedDiff_rounded :
  mappedDiff (T:=float) (sliderState 3 (-3) 0)
    = Vec.mk (-0x1p-55)%float (-0x1p-56)%float /\
  toSvg (-0x1p-55)%float (-0x1p-56)%float
    = toSvg (T:=float) 0%float 0%float.
Proof. split; vm_compute; reflexivity. Qed.

(** The pixel grid is coarser than the numbers: two ordinates closer than
    the rounding step of [ORIGIN - y] get the same pixel. *)
Lemma b64_toSvg_rounded :
  toSvg (T:=float) 0%float 0x1p-60%float = toSvg (T:=float) 0%float 0%float /\
  PrimFloat.ltb 0%float 0x1p-60%float = true.
Proof. split; vm_compute; reflexivity. Qed.

(** Far outside the slider range a scalar can absorb the null-space
    component: with bScalar = 1e20, lambda1 = 1 and lambda2 = 0 both
    solutions have abscissa 1e20 and [mappedDiff] is (0.5, 0.25). *)
Lemma b64_mappedDiff_absorbed :
  mappedDiff (mkState 1e20%float 1%float 0%float)
    = Vec.mk 0.5%float 0.25%float.
Proof. vm_compute. reflexivity. Qed.

(** At the bottom of the binary64 range the products by 0.5 and 0.25
    underflow: transform(2^-1074, 2^-1073) = (2^-1073, 0). *)
Lemma b64_transform_underflow :
  transform 0x1p-1074%float 0x1p-1073%float
    = Vec.mk 0x1p-1073%float 0%float /\
  b64_on_line (transform 0x1p-1074%float 0x1p-1073%float) = false.
Proof. split; vm_compute; reflexivity. Qed.

(** * The drawing *)

Ltac draw_arith :=
  unfold onSegment, lineInViewBox, inViewBox, inSliders, inSlider, veq,
    targetMarker, diffMarker, columnSpaceLine, differenceLine, solutionLine,
    nullSpaceLine, arrowLine, arrowStart, axisLine, gridLine, viewBoxSide,
    mappedDiff, bVec, bFromX1, bFromX2, diff, x1, x2, xp,
    nullBasis, transform, toSvg, ORIGIN, VIEWBOX_SIZE, SCALE in *;
  cbn [Line.x1 Line.y1 Line.x2 Line.y2 Vec.x Vec.y bScalar lambda1 lambda2
       lit add sub mul div exact] in *;
  unfold Qdiv in *;
  change (/ 2) with (1 # 2) in *;
  change (/ 10) with (1 # 10) in *;
  change (/ 20) with (1 # 20) in *.

Ltac pos_arith :=
  unfold pixel, affinePixel, segmentPoint, extent, solutionLineStart,
    solutionLineEnd, solutionParameter, nullSpaceParameter,
    columnSpaceParameter, gapVector in *;
  draw_arith.

(** ** The view box *)

Lemma gridIndices_spec (i : Z) : (0 <= i <= 20)%Z -> In i gridIndices.
Proof.
  intros Hi. unfold gridIndices.
  apply in_map_iff. exists (Z.to_nat i). split.
  - lia.
  - apply in_seq. lia.
Qed.

(** X1.  The grid is the integer lattice of the coordinate system: the
    line of index i is drawn where [toSvg] puts the abscissa i - 10 and the
    ordinate 10 - i, the two axes are the lines of index 10 and cross at
    toSvg(0, 0), and for i from 0 to 20 the lines lie within the view box.
    In binary64 arithmetic the positions agree exactly (===) for each of
    the 21 indices. *)
Theorem grid_is_integer_lattice :
  forall i : Z, (0 <= i <= 20)%Z ->
    (forall x y : Q,
       gridLine i == Vec.x (toSvg (inject_Z i - 10) y) /\
       gridLine i == Vec.y (toSvg x (10 - inject_Z i))) /\
    (0 <= gridLine (T:=Q) i <= viewBoxSide) /\
    (axisLine (T:=Q) == gridLine 10 /\
     toSvg (T:=Q) 0 0 =v= Vec.mk axisLine axisLine) /\
    (forall x y : float,
       PrimFloat.eqb (gridLine i) (Vec.x (toSvg (lit (i - 10 # 1)) y))
       && PrimFloat.eqb (gridLine i) (Vec.y (toSvg x (lit (10 - i # 1))))
       && PrimFloat.eqb (axisLine (T:=float)) (gridLine 10) = true).
Proof.
  intros i Hi. split; [| split; [| split]].
  - intros x y. draw_arith.
    assert (Hz : i # 1 == inject_Z i) by reflexivity.
    rewrite Hz. split; field.
  - draw_arith.
    assert (H0 : 0 <= i # 1) by (unfold Qle; cbn; lia).
    assert (H20 : i # 1 <= 20) by (unfold Qle; cbn; lia).
    split; lra.
  - draw_arith. repeat split; field.
  - intros x y.
    assert (Hall : forallb (fun j =>
              PrimFloat.eqb (gridLine j)
                (Vec.x (toSvg (lit (j - 10 # 1)) PrimFloat.zero))
              && PrimFloat.eqb (gridLine j)
                   (Vec.y (toSvg PrimFloat.zero (lit (10 - j # 1))))
              && PrimFloat.eqb (axisLine (T:=float)) (gridLine 10))
            gridIndices = true)
      by (vm_compute; reflexivity).
    rewrite forallb_forall in Hall.
    exact (Hall i (gridIndices_spec Hi)).
Qed.

Lemma grid_is_integer_lattice_witness :
  (0 <= 13 <= 20)%Z /\
  gridLine (T:=Q) 13 == Vec.x (toSvg (inject_Z 13 - 10) 0).
Proof.
  assert (Hi : (0 <= 13 <= 20)%Z) by lia.
  split; [exact Hi |].
  exact (proj1 (proj1 (grid_is_integer_lattice Hi) 0 0)).
Defined.

(** X2.  [toSvg] puts a point inside the view box exactly when both of its
    coordinates are between -10 and 10 (exact arithmetic). *)
Theorem toSvg_viewBox_iff :
  forall x y : Q,
    (-10 <= x <= 10 /\ -10 <= y <= 10) <-> inViewBox (toSvg x y).
Proof.
  intros x y.
  destruct (toSvg_exact x y) as [Hx Hy].
  unfold inViewBox. rewrite Hx, Hy.
  unfold viewBoxSide, VIEWBOX_SIZE, SCALE. cbn [lit mul exact].
  split; intros [[? ?] [? ?]]; repeat split; lra.
Qed.

Lemma toSvg_viewBox_iff_witness :
  (-10 <= 6.5 <= 10 /\ -10 <= -5 <= 10) /\ inViewBox (toSvg (T:=Q) 6.5 (-5)).
Proof.
  assert (Hv : -10 <= 6.5 <= 10 /\ -10 <= -5 <= 10)
    by (split; split; discriminate).
  split; [exact Hv |].
  exact (proj1 (toSvg_viewBox_iff 6.5 (-5)) Hv).
Defined.

(** ** Nothing is drawn outside the view box *)

(** X3.  For slider values between -4 and 4 everything the two panels draw
    from the state is inside the view box: the arrows of x1, x2 and
    x1 - x2, the dashed line between the tips, the whole solution line, and
    the markers of b and of A(x1 - x2).  This holds over exact arithmetic
    for all values in the range, and in binary64 arithmetic at every
    setting of the three sliders. *)
Theorem drawing_in_viewBox :
  (forall s : State Q, inSliders s ->
     lineInViewBox (arrowLine arrowStart (x1 s)) /\
     lineInViewBox (arrowLine arrowStart (x2 s)) /\
     lineInViewBox (arrowLine arrowStart (diff s)) /\
     lineInViewBox (differenceLine s) /\
     lineInViewBox (solutionLine s) /\
     inViewBox (targetMarker s) /\
     inViewBox (diffMarker s)) /\
  (forall kb k1 k2 : Z, inRange kb -> inRange k1 -> inRange k2 ->
     b64_drawnInViewBox (sliderState kb k1 k2) = true).
Proof.
  split.
  - intros s Hs. draw_arith.
    destruct Hs as ([? ?] & [? ?] & [? ?]).
    repeat split; lra.
  - apply (forall_settings_spec b64_drawnInViewBox). by_settings.
Qed.

(** The drawing at the ends of the slider range, and at the setting
    -4, 4, -4 in binary64 arithmetic. *)
Lemma drawing_in_viewBox_witness :
  (inSliders (mkState (-4) 4 (-4)) /\
   lineInViewBox (arrowLine arrowStart (diff (mkState (-4) 4 (-4))))) /\
  ((inRange (-40) /\ inRange 40 /\ inRange (-40)) /\
   b64_drawnInViewBox (sliderState (-40) 40 (-40)) = true).
Proof.
  split.
  - assert (Hs : inSliders (mkState (-4) 4 (-4)))
      by (repeat split; discriminate).
    split; [exact Hs |].
    exact (proj1 (proj2 (proj2 (proj1 drawing_in_viewBox _ Hs)))).
  - assert (Hr : inRange (-40) /\ inRange 40 /\ inRange (-40))
      by (unfold inRange; lia).
    split; [exact Hr |].
    destruct Hr as (Hb & H1 & H2).
    exact (proj2 drawing_in_viewBox (-40)%Z 40%Z (-40)%Z Hb H1 H2).
Defined.

(** ** The lines of the input panel *)

(** X4.  The solution line is made of solutions, and the arrows of x1 and
    x2 end on it.  Over exact arithmetic every point xp + u * nullBasis is
    sent to b by A, and for lambda between -5 and 5 the tip of the arrow is
    the point of parameter (lambda + 5) / 10 of the drawn segment.  In
    binary64 arithmetic, at every setting of the three sliders, A sends both
    ends of the line within 1e-9 of b, the two parameters are between 0 and
    1, and each tip is within 1e-9 of the point of its parameter. *)
Theorem tips_on_solution_line :
  (forall s : State Q,
     (forall u : Q,
        transform (Vec.x (xp s) + u * Vec.x nullBasis)
                  (Vec.y (xp s) + u * Vec.y nullBasis) =v= bVec s) /\
     (-5 <= lambda1 s <= 5 ->
        onSegment (solutionLine s) (pixel (x1 s))
          (solutionParameter (lambda1 s))) /\
     (-5 <= lambda2 s <= 5 ->
        onSegment (solutionLine s) (pixel (x2 s))
          (solutionParameter (lambda2 s)))) /\
  (forall kb k1 k2 : Z, inRange kb -> inRange k1 -> inRange k2 ->
     b64_tipsOnSolutionLine (sliderState kb k1 k2) = true).
Proof.
  split.
  - intros s. split; [| split].
    + intros u. draw_arith. split; ring.
    + intros [Hlo Hhi]. pos_arith. split; [split; lra |]. split; field.
    + intros [Hlo Hhi]. pos_arith. split; [split; lra |]. split; field.
  - apply (forall_settings_spec b64_tipsOnSolutionLine). by_settings.
Qed.

(** The tip of x1 at the initial state, and the setting 0.1, 3.9, -3.3. *)
Lemma tips_on_solution_line_witness :
  ((-5 <= lambda1 (initialState (T:=Q)) <= 5) /\
   onSegment (solutionLine (T:=Q) initialState) (pixel (x1 initialState))
     (solutionParameter (lambda1 initialState))) /\
  ((inRange 1 /\ inRange 39 /\ inRange (-33)) /\
   b64_tipsOnSolutionLine (sliderState 1 39 (-33)) = true).
Proof.
  split.
  - assert (Hl : -5 <= lambda1 (initialState (T:=Q)) <= 5)
      by (split; discriminate).
    split; [exact Hl |].
    exact (proj1 (proj2 (proj1 tips_on_solution_line initialState)) Hl).
  - assert (Hr : inRange 1 /\ inRange 39 /\ inRange (-33))
      by (unfold inRange; lia).
    split; [exact Hr |].
    destruct Hr as (Hb & H1 & H2).
    exact (proj2 tips_on_solution_line 1%Z 39%Z (-33)%Z Hb H1 H2).
Defined.

(** X5.  The arrow of x1 - x2 stays on the dashed null-space line.  Over
    exact arithmetic, when lambda1 - lambda2 is between -10 and 10, as it is
    for all slider values, its tip is the point of parameter
    (10 - (lambda1 - lambda2)) / 20 of the drawn segment, and its start is
    the middle of the segment.  In binary64 arithmetic, at every setting of
    the three sliders, the parameter is between 0 and 1 and the tip and the
    start are within 1e-9 of those two points. *)
Theorem diff_on_nullSpaceLine :
  (forall s : State Q,
     -10 <= lambda1 s - lambda2 s <= 10 ->
     onSegment nullSpaceLine (pixel (diff s)) (nullSpaceParameter s) /\
     onSegment nullSpaceLine (pixel arrowStart) (lit 0.5)) /\
  (forall kb k1 k2 : Z, inRange kb -> inRange k1 -> inRange k2 ->
     b64_diffOnNullSpaceLine (sliderState kb k1 k2) = true).
Proof.
  split.
  - intros s [Hlo Hhi]. pos_arith.
    split; (split; [split; lra |]); split; field.
  - apply (forall_settings_spec b64_diffOnNullSpaceLine). by_settings.
Qed.

(** The arrow at the initial state, and at the setting 0.3, -0.3, 0. *)
Lemma diff_on_nullSpaceLine_witness :
  ((-10 <= lambda1 (initialState (T:=Q)) - lambda2 (initialState (T:=Q))
        <= 10) /\
   onSegment nullSpaceLine (pixel (diff (T:=Q) initialState))
     (nullSpaceParameter initialState)) /\
  ((inRange 3 /\ inRange (-3) /\ inRange 0) /\
   b64_diffOnNullSpaceLine (sliderState 3 (-3) 0) = true).
Proof.
  split.
  - assert (Hd : -10 <= lambda1 (initialState (T:=Q))
                        - lambda2 (initialState (T:=Q)) <= 10)
      by (split; discriminate).
    split; [exact Hd |].
    exact (proj1 (proj1 diff_on_nullSpaceLine initialState Hd)).
  - assert (Hr : inRange 3 /\ inRange (-3) /\ inRange 0)
      by (unfold inRange; lia).
    split; [exact Hr |].
    destruct Hr as (Hb & H1 & H2).
    exact (proj2 diff_on_nullSpaceLine 3%Z (-3)%Z 0%Z Hb H1 H2).
Defined.

(** X6.  The dashed line between the tips of x2 and x1 is the arrow of
    x1 - x2 moved to the tip of x2: over exact arithmetic both have the
    same horizontal and vertical extent in pixels, and in binary64
    arithmetic the two extents are within 1e-9 of each other at every
    setting of the three sliders. *)
Theorem differenceLine_is_diff_arrow :
  (forall s : State Q,
     extent (differenceLine s) =v= extent (arrowLine arrowStart (diff s))) /\
  (forall kb k1 k2 : Z, inRange kb -> inRange k1 -> inRange k2 ->
     b64_sameExtent (sliderState kb k1 k2) = true).
Proof.
  split.
  - intros s. pos_arith. split; ring.
  - apply (forall_settings_spec b64_sameExtent). by_settings.
Qed.

(** The two extents at the setting 0.1, 0.3, 0.2. *)
Lemma differenceLine_is_diff_arrow_witness :
  (inRange 1 /\ inRange 3 /\ inRange 2) /\
  b64_sameExtent (sliderState 1 3 2) = true.
Proof.
  assert (Hr : inRange 1 /\ inRange 3 /\ inRange 2)
    by (unfold inRange; lia).
  split; [exact Hr |].
  destruct Hr as (Hb & H1 & H2).
  exact (proj2 differenceLine_is_diff_arrow 1%Z 3%Z 2%Z Hb H1 H2).
Defined.

(** X7.  The solution line is the middle half of the null-space line moved
    40 * bScalar pixels to the right: it is parallel to it, its middle is
    the pixel of xp, and its first end is on the null-space line exactly
    when bScalar = 0 (exact arithmetic). *)
Theorem solutionLine_parallel :
  forall s : State Q,
    (Line.x1 (solutionLine s)
       == Line.x1 nullSpaceLine
          + (3 # 4) * (Line.x2 nullSpaceLine - Line.x1 nullSpaceLine)
          + 40 * bScalar s /\
     Line.y1 (solutionLine s)
       == Line.y1 nullSpaceLine
          + (3 # 4) * (Line.y2 nullSpaceLine - Line.y1 nullSpaceLine)) /\
    (Line.x2 (solutionLine s)
       == Line.x1 nullSpaceLine
          + (1 # 4) * (Line.x2 nullSpaceLine - Line.x1 nullSpaceLine)
          + 40 * bScalar s /\
     Line.y2 (solutionLine s)
       == Line.y1 nullSpaceLine
          + (1 # 4) * (Line.y2 nullSpaceLine - Line.y1 nullSpaceLine)) /\
    toSvg (Vec.x (xp s)) (Vec.y (xp s))
      =v= Vec.mk ((Line.x1 (solutionLine s) + Line.x2 (solutionLine s)) / 2)
                 ((Line.y1 (solutionLine s) + Line.y2 (solutionLine s)) / 2) /\
    (bScalar s == 0 <->
       Line.x1 (solutionLine s)
         == Line.x1 nullSpaceLine
            + (3 # 4) * (Line.x2 nullSpaceLine - Line.x1 nullSpaceLine)).
Proof.
  intros s. draw_arith.
  split; [split; field | split; [split; field | split; [split; field |]]].
  split; intros E; lra.
Qed.

(** ** The line of the output panel *)

(** X8.  The marker of b is on the column-space line.  Over exact
    arithmetic, for bScalar between -10 and 10 it is the point of parameter
    (bScalar + 10) / 20 of the drawn segment, and the marker of A(x1 - x2)
    is the middle of the segment, the pixel of the origin, in every state.
    In binary64 arithmetic, at every setting of the three sliders, the
    parameter is between 0 and 1 and the two markers are within 1e-9 of
    those two points. *)
Theorem markers_on_columnSpaceLine :
  (forall s : State Q,
     (-10 <= bScalar s <= 10 ->
        onSegment columnSpaceLine (targetMarker s)
          (columnSpaceParameter s)) /\
     onSegment columnSpaceLine (diffMarker s) (lit 0.5) /\
     diffMarker s =v= toSvg 0 0) /\
  (forall kb k1 k2 : Z, inRange kb -> inRange k1 -> inRange k2 ->
     b64_markersOnColumnSpaceLine (sliderState kb k1 k2) = true).
Proof.
  split.
  - intros s. split; [| split].
    + intros [Hlo Hhi]. pos_arith. split; [split; lra |]. split; field.
    + pos_arith. split; [split; lra |]. split; field.
    + pos_arith. split; field.
  - apply (forall_settings_spec b64_markersOnColumnSpaceLine). by_settings.
Qed.

(** The marker of b at the initial state, and at the setting
    -3.7, 0.1, 4. *)
Lemma markers_on_columnSpaceLine_witness :
  ((-10 <= bScalar (initialState (T:=Q)) <= 10) /\
   onSegment columnSpaceLine (targetMarker (T:=Q) initialState)
     (columnSpaceParameter initialState)) /\
  ((inRange (-37) /\ inRange 1 /\ inRange 40) /\
   b64_markersOnColumnSpaceLine (sliderState (-37) 1 40) = true).
Proof.
  split.
  - assert (Hb : -10 <= bScalar (initialState (T:=Q)) <= 10)
      by (split; discriminate).
    split; [exact Hb |].
    exact (proj1 (proj1 markers_on_columnSpaceLine initialState) Hb).
  - assert (Hr : inRange (-37) /\ inRange 1 /\ inRange 40)
      by (unfold inRange; lia).
    split; [exact Hr |].
    destruct Hr as (Hb & H1 & H2).
    exact (proj2 markers_on_columnSpaceLine (-37)%Z 1%Z 40%Z Hb H1 H2).
Defined.

(** X9.  In binary64 arithmetic the marker of A(x1 - x2) is drawn on the
    pixel of the origin, (400, 400), at every setting of the three sliders,
    also where [mappedDiff] is not the number 0. *)
Theorem b64_diffMarker_at_origin :
  forall kb k1 k2 : Z, inRange kb -> inRange k1 -> inRange k2 ->
    PrimFloat.eqb (Vec.x (diffMarker (sliderState kb k1 k2))) 400%float
    && PrimFloat.eqb (Vec.y (diffMarker (sliderState kb k1 k2))) 400%float
    = true.
Proof.
  apply (forall_settings_spec
           (fun s => PrimFloat.eqb (Vec.x (diffMarker s)) 400%float
                     && PrimFloat.eqb (Vec.y (diffMarker s)) 400%float)).
  by_settings.
Qed.

Lemma b64_diffMarker_at_origin_witness :
  (inRange 3 /\ inRange (-3) /\ inRange 0) /\
  PrimFloat.eqb (Vec.x (diffMarker (sliderState 3 (-3) 0))) 400%float
  && PrimFloat.eqb (Vec.y (diffMarker (sliderState 3 (-3) 0))) 400%float
  = true.
Proof.
  assert (Hr : inRange 3 /\ inRange (-3) /\ inRange 0)
    by (unfold inRange; lia).
  split; [exact Hr |].
  destruct Hr as (Hb & H1 & H2).
  exact (b64_diffMarker_at_origin Hb H1 H2).
Defined.

(** X10.  The arrow of x1 - x2 has no length exactly when lambda1 and
    lambda2 are equal, and that is also exactly when the arrows of x1 and
    x2 end on the same pixel (exact arithmetic). *)
Theorem arrows_coincide_iff :
  forall s : State Q,
    (lambda1 s == lambda2 s <->
       toSvg (Vec.x (diff s)) (Vec.y (diff s))
         =v= toSvg (Vec.x arrowStart) (Vec.y arrowStart)) /\
    (lambda1 s == lambda2 s <->
       toSvg (Vec.x (x1 s)) (Vec.y (x1 s))
         =v= toSvg (Vec.x (x2 s)) (Vec.y (x2 s))).
Proof.
  intros s. draw_arith. split; split.
  - intros E. split; lra.
  - intros [_ Ey]. lra.
  - intros E. split; lra.
  - intros [_ Ey]. lra.
Qed.

(** X11.  x1 - x2 does not depend on the target, up to rounding.  Over
    exact arithmetic diff is (lambda1 - lambda2) * nullBasis, so that two
    states with the same lambda1 - lambda2 have the same difference vector,
    whatever their bScalar, and exchanging lambda1 and lambda2 negates it.
    In binary64 arithmetic diff is within 1e-9 of
    (lambda1 - lambda2) * nullBasis at every setting of the three
    sliders. *)
Theorem diff_depends_on_gap :
  (forall s : State Q, diff s =v= gapVector s) /\
  (forall s s' : State Q,
     lambda1 s - lambda2 s == lambda1 s' - lambda2 s' ->
     diff s =v= diff s' /\
     diff (mkState (bScalar s) (lambda2 s) (lambda1 s))
       =v= Vec.mk (- Vec.x (diff s')) (- Vec.y (diff s'))) /\
  (forall kb k1 k2 : Z, inRange kb -> inRange k1 -> inRange k2 ->
     b64_diffIsGap (sliderState kb k1 k2) = true).
Proof.
  split; [| split].
  - intros s. pos_arith. split; ring.
  - intros s s' E. draw_arith. repeat split; lra.
  - apply (forall_settings_spec b64_diffIsGap). by_settings.
Qed.

(** Two states with the gap 3, and the settings 0.1, 0.3, 0. *)
Lemma diff_depends_on_gap_witness :
  ((1 - (-2) == 4 - 1) /\
   diff (mkState 3 1 (-2)) =v= diff (mkState (-4) 4 1)) /\
  ((inRange 1 /\ inRange 3 /\ inRange 0) /\
   b64_diffIsGap (sliderState 1 3 0) = true).
Proof.
  split.
  - assert (E : 1 - (-2) == 4 - 1) by reflexivity.
    split; [exact E |].
    exact (proj1 (proj1 (proj2 diff_depends_on_gap)
                    (mkState 3 1 (-2)) (mkState (-4) 4 1) E)).
  - assert (Hr : inRange 1 /\ inRange 3 /\ inRange 0)
      by (unfold inRange; lia).
    split; [exact Hr |].
    destruct Hr as (Hb & H1 & H2).
    exact (proj2 (proj2 diff_depends_on_gap) 1%Z 3%Z 0%Z Hb H1 H2).
Defined.

(** * Sessions *)

(** X12.  Changes through two different controls can be made in either
    order, and a second change through the same control replaces the
    first. *)
Theorem onChange_commute_overwrite (T : Type)
    (c c' : Control) (v v' : T) (s : State T) :
  (c <> c' ->
     onChange c v (onChange c' v' s) = onChange c' v' (onChange c v s)) /\
  onChange c v (onChange c v' s) = onChange c v s.
Proof.
  split.
  - intros Hc. destruct c, c'; try reflexivity; now contradict Hc.
  - destruct c; reflexivity.
Qed.

Lemma onChange_commute_overwrite_witness :
  (TargetB <> SolutionX2) /\
  onChange TargetB 2 (onChange SolutionX2 (-1) (initialState (T:=Q)))
    = onChange SolutionX2 (-1) (onChange TargetB 2 initialState).
Proof.
  assert (Hc : TargetB <> SolutionX2) by discriminate.
  split; [exact Hc |].
  exact (proj1 (@onChange_commute_overwrite Q TargetB SolutionX2
                  2 (-1) initialState) Hc).
Defined.

(** X13.  After any session each scalar holds the last value given to its
    control, or its value before the session when its control was never
    moved. *)
Theorem handle_lastChange (T : Type)
    (c : Control) (evs : list (Control * T)) (s : State T) :
  scalar c (handle evs s)
    = match lastChange c evs with
      | Some v => v
      | None => scalar c s
      end.
Proof.
  revert s. induction evs as [| [c' v] evs IH]; intros s; cbn.
  - reflexivity.
  - rewrite IH. destruct (lastChange c evs) as [w |].
    + reflexivity.
    + rewrite onChange_scalar. destruct (Control_eqb c' c); reflexivity.
Qed.

Lemma handle_sliderState (T : Type) (N : Number T)
    (evs : list (Control * Z)) (kb k1 k2 : Z) :
  Forall (fun e => inRange (snd e)) evs ->
  inRange kb -> inRange k1 -> inRange k2 ->
  exists kb' k1' k2' : Z,
    (inRange kb' /\ inRange k1' /\ inRange k2') /\
    handle (map slide evs) (sliderState kb k1 k2) = sliderState kb' k1' k2'.
Proof.
  intros Hevs. revert kb k1 k2.
  induction Hevs as [| [c k] evs Hk _ IH]; intros kb k1 k2 Hb H1 H2.
  - exists kb, k1, k2. cbn. auto.
  - cbn in Hk. cbn [map handle slide fst snd].
    destruct c; cbn [onChange]; unfold setBScalar, setLambda1, setLambda2;
      cbn [sliderState bScalar lambda1 lambda2].
    + apply (IH k k1 k2); assumption.
    + apply (IH kb k k2); assumption.
    + apply (IH kb k1 k); assumption.
Qed.

(** X14.  Whatever sequence of slider moves a session makes from the
    initial state, the binary64 state it ends in is one of the 81^3 slider
    settings; over exact arithmetic, a session of values between -4 and 4
    keeps the three scalars between -4 and 4. *)
Theorem session_stays_on_settings :
  (forall evs : list (Control * Z),
     Forall (fun e => inRange (snd e)) evs ->
     exists kb k1 k2 : Z,
       (inRange kb /\ inRange k1 /\ inRange k2) /\
       handle (map slide evs) (initialState (T:=float))
         = sliderState kb k1 k2) /\
  (forall (evs : list (Control * Q)) (s : State Q),
     Forall (fun e => inSlider (snd e)) evs ->
     inSliders s -> inSliders (handle evs s)).
Proof.
  split.
  - intros evs Hevs.
    change (initialState (T:=float)) with (sliderState (T:=float) 30 10 (-20)).
    apply handle_sliderState; [assumption | | |]; unfold inRange; lia.
  - intros evs s Hevs. revert s.
    induction Hevs as [| [c v] evs Hv _ IH]; intros s Hs; cbn.
    + assumption.
    + apply IH. cbn in Hv. destruct Hs as (Hb & H1 & H2).
      destruct c; cbn; unfold inSliders; cbn; auto.
Qed.

Lemma session_stays_on_settings_witness :
  Forall (fun e => inSlider (snd e)) [(SolutionX1, 4); (TargetB, -4)] /\
  inSliders (initialState (T:=Q)) /\
  inSliders (handle [(SolutionX1, 4); (TargetB, -4)] (initialState (T:=Q))).
Proof.
  assert (Hevs : Forall (fun e : Control * Q => inSlider (snd e))
                   [(SolutionX1, 4); (TargetB, -4)])
    by (repeat constructor; discriminate).
  assert (Hs : inSliders (initialState (T:=Q)))
    by (repeat split; discriminate).
  split; [exact Hevs | split; [exact Hs |]].
  exact (proj2 session_stays_on_settings _ _ Hevs Hs).
Defined.
